(** * WalletConnect wallet adapter: connection lifecycle and result translation

    A shallow embedding of [WalletConnectWalletAdapter]
    (packages/core/wallets/src/types.ts).  The adapter is a stateful facade
    over an external pairing SDK ([WcSdk]): it keeps three mutable fields
    ([_address], [_connecting], [_sdk]), forwards calls to the SDK and emits
    the notifications [connect], [disconnect] and [error].

    The SDK itself is not part of the repository.  Every SDK call therefore
    takes its outcome (the value it resolves with, or the value it throws)
    as an explicit argument, and every call that is performed is recorded in
    the effect trace, next to the notifications that are emitted.

    Each asynchronous method is run from its first statement to the
    settlement of its promise without interleaving of other methods. *)

From Stdlib Require Import List String ZArith Bool Lia.
Import ListNotations.
Open Scope string_scope.
Open Scope list_scope.

#[local] Set Warnings "-register-all".

(** ** JavaScript values *)

Module Js.

(** The values that cross the SDK boundary.  Objects are property lists in
    insertion order; numbers are the integers the RPC layer carries; a
    function object is known by its name only. *)
Inductive Value : Type :=
| Undefined
| Null
| Bool (b : bool)
| Number (n : Z)
| String (s : string)
| Object (props : list (string * Value))
| Function (name : string).

Definition Props : Type := list (string * Value).

(** [o.k] on the property list of an object: [undefined] when absent. *)
Fixpoint get (o : Props) (k : string) : Value :=
  match o with
  | [] => Undefined
  | (k', v) :: o' => if String.eqb k' k then v else get o' k
  end.

(** [o[k] = v]: overwrite in place when the key exists, append otherwise. *)
Fixpoint set (o : Props) (k : string) (v : Value) : Props :=
  match o with
  | [] => [(k, v)]
  | (k', v') :: o' =>
      if String.eqb k' k then (k', v) :: o' else (k', v') :: set o' k v
  end.

(** [{ ...o }]: copy the own properties of [o], in order, into a fresh
    object. *)
Definition spread (o : Props) : Props :=
  fold_left (fun acc kv => set acc (fst kv) (snd kv)) o [].

(** An object has each of its keys once. *)
Definition wf (o : Props) : Prop := NoDup (map fst o).

(** [v?.k]: [undefined] on [null] and [undefined]; the property of an
    object; [undefined] on the primitives and on functions, which carry
    neither [message] nor [code]. *)
Definition opt_member (v : Value) (k : string) : Value :=
  match v with
  | Object o => get o k
  | _ => Undefined
  end.

(** [v === 'lit'] for a string literal. *)
Definition strict_eq_string (v : Value) (lit : string) : bool :=
  match v with
  | String s => String.eqb s lit
  | _ => false
  end.

(** [!!v] *)
Definition truthy (v : Value) : bool :=
  match v with
  | Undefined | Null => false
  | Bool b => b
  | Number n => negb (Z.eqb n 0)
  | String s => negb (String.eqb s "")
  | Object _ | Function _ => true
  end.

End Js.

(** ** Responses and invocation results *)

(** [RpcCallResult]: the adapter reads only its [result] member, the raw
    execution payload. *)
Record RpcCallResult : Type := { result : Js.Props }.

(** [ContractReadInvocationResult] and [ContractWriteInvocationResult] are
    built by the adapter as the same two object literals:
    [{status: 'success', data}] and [{status: 'error', message, code}]. *)
Inductive InvocationResult : Type :=
| StatusSuccess (data : Js.Props)
| StatusError (message : Js.Value) (code : Js.Value).

Definition ContractReadInvocationResult : Type := InvocationResult.
Definition ContractWriteInvocationResult : Type := InvocationResult.

Definition _responseToReadResult (response : RpcCallResult)
  : ContractReadInvocationResult :=
  if Js.strict_eq_string (Js.get (result response) "state") "HALT"
  then StatusSuccess (Js.spread (result response))
  else StatusError (Js.opt_member (Js.get (result response) "error") "message")
                   (Js.opt_member (Js.get (result response) "error") "code").

Definition _responseToWriteResult (response : RpcCallResult)
  : ContractWriteInvocationResult :=
  if Js.strict_eq_string (Js.get (result response) "state") "HALT"
  then StatusSuccess (Js.spread (result response))
  else StatusError (Js.opt_member (Js.get (result response) "error") "message")
                   (Js.opt_member (Js.get (result response) "error") "code").

(** ** Errors, SDK handles and requests *)

(** The error classes of the adapter base package that this file names. *)
Inductive WalletErrorClass : Type :=
| ConnectionErrorClass
| AccountErrorClass
| DisconnectionErrorClass
| DisconnectedErrorClass
| NotConnectedErrorClass.

(** A thrown value ([error: any]).  An instance of a [WalletError] subclass
    is kept as the arguments of its constructor, [(message?, error?)];
    everything else is a foreign value. *)
Inductive Thrown : Type :=
| Foreign (v : Js.Value)
| WalletError (cls : WalletErrorClass) (message : Js.Value)
              (cause : option Thrown).

Definition WalletConnectionError := WalletError ConnectionErrorClass.
Definition WalletAccountError := WalletError AccountErrorClass.
Definition WalletDisconnectionError := WalletError DisconnectionErrorClass.
Definition WalletDisconnectedError := WalletError DisconnectedErrorClass.
Definition WalletNotConnectedError := WalletError NotConnectedErrorClass.

(** [error instanceof WalletError] *)
Definition instanceof_WalletError (e : Thrown) : bool :=
  match e with
  | WalletError _ _ _ => true
  | Foreign _ => false
  end.

(** [error?.message].  A [WalletError] passes its [message?: string]
    argument to the [Error] constructor, which leaves the message empty when
    none is given. *)
Definition message_of (e : Thrown) : Js.Value :=
  match e with
  | Foreign v => Js.opt_member v "message"
  | WalletError _ Js.Undefined _ => Js.String ""
  | WalletError _ m _ => m
  end.

(** The [TypeError] raised by a member access on [undefined]. *)
Definition TypeError : Thrown :=
  Foreign (Js.Object [("name", Js.String "TypeError")]).

(** An instance made by [new WcSdk()], known by its identity. *)
Inductive WcSdk : Type := WcSdkInstance (id : nat).

Definition WcConnectOptions : Type := Js.Value.

(** [ContractReadInvocation] and [ContractWriteInvocation]: the members the
    adapter reads. *)
Record ContractInvocation : Type := {
  scriptHash : Js.Value;
  operation : Js.Value;
  args : Js.Value;
  abortOnFail : Js.Value;
  signers : option (list Js.Value)
}.

(** [ContractReadInvocationMulti] and [ContractWriteInvocationMulti]. *)
Record ContractInvocationMulti : Type := {
  invocations : Js.Value;
  multi_signers : Js.Value
}.

Definition ContractReadInvocation : Type := ContractInvocation.
Definition ContractWriteInvocation : Type := ContractInvocation.
Definition ContractReadInvocationMulti : Type := ContractInvocationMulti.
Definition ContractWriteInvocationMulti : Type := ContractInvocationMulti.

(** [request.signers?.[0]] *)
Definition first_signer (request : ContractInvocation) : Js.Value :=
  match signers request with
  | None => Js.Undefined
  | Some l => nth 0 l Js.Undefined
  end.

(** The argument object of [testInvoke] and [invokeFunction]. *)
Record InvokeArgs : Type := {
  arg_scriptHash : Js.Value;
  arg_operation : Js.Value;
  arg_args : Js.Value;
  arg_abortOnFail : Js.Value;
  arg_signer : Js.Value
}.

(** The argument object of [multiTestInvoke] and [multiInvoke]. *)
Record MultiInvokeArgs : Type := {
  arg_invocations : Js.Value;
  arg_signers : Js.Value
}.

Definition single_args (request : ContractInvocation) : InvokeArgs :=
  {| arg_scriptHash := scriptHash request;
     arg_operation := operation request;
     arg_args := args request;
     arg_abortOnFail := abortOnFail request;
     arg_signer := first_signer request |}.

Definition multi_args (request : ContractInvocationMulti) : MultiInvokeArgs :=
  {| arg_invocations := invocations request;
     arg_signers := multi_signers request |}.

(** ** Effects *)

(** Everything the adapter asks of the SDK, constructor included. *)
Inductive SdkCall : Type :=
| NewWcSdk (sdk : WcSdk)
| InitClient (sdk : WcSdk) (logger relayServer : string)
| SdkConnect (sdk : WcSdk) (options : WcConnectOptions)
| GetAccountAddress (sdk : WcSdk)
| SubscribeToEvents (sdk : WcSdk)
| SdkDisconnect (sdk : WcSdk)
| TestInvoke (sdk : WcSdk) (a : InvokeArgs)
| MultiTestInvoke (sdk : WcSdk) (a : MultiInvokeArgs)
| InvokeFunction (sdk : WcSdk) (a : InvokeArgs)
| MultiInvoke (sdk : WcSdk) (a : MultiInvokeArgs).

(** [this.emit(...)] *)
Inductive Notification : Type :=
| EvConnect
| EvDisconnect
| EvError (e : Thrown).

Inductive Effect : Type :=
| Sdk (c : SdkCall)
| Emit (n : Notification).

Definition Trace : Type := list Effect.

Fixpoint sdk_calls (t : Trace) : list SdkCall :=
  match t with
  | [] => []
  | Sdk c :: t' => c :: sdk_calls t'
  | Emit _ :: t' => sdk_calls t'
  end.

Fixpoint notifications (t : Trace) : list Notification :=
  match t with
  | [] => []
  | Sdk _ :: t' => notifications t'
  | Emit n :: t' => n :: notifications t'
  end.

Definition is_disconnect (n : Notification) : bool :=
  match n with EvDisconnect => true | _ => false end.

(** How an SDK call ends. *)
Inductive Outcome (A : Type) : Type :=
| Resolves (a : A)
| Rejects (e : Thrown).
Arguments Resolves {A} a.
Arguments Rejects {A} e.

(** ** The adapter object *)

Record Adapter : Type := {
  _address : option string;
  _connecting : bool;
  _options : WcConnectOptions;
  _logger : string;
  _relayServer : string;
  _sdk : option WcSdk
}.

Record WalletConnectWalletAdapterConfig : Type := {
  options : WcConnectOptions;
  logger : string;
  relayServer : string
}.

(** The constructor; [_sdk] is a declared field left [undefined]. *)
Definition constructor (config : WalletConnectWalletAdapterConfig) : Adapter :=
  {| _address := None;
     _connecting := false;
     _options := options config;
     _logger := logger config;
     _relayServer := relayServer config;
     _sdk := None |}.

Definition with_address (a : option string) (s : Adapter) : Adapter :=
  {| _address := a; _connecting := _connecting s; _options := _options s;
     _logger := _logger s; _relayServer := _relayServer s; _sdk := _sdk s |}.

Definition with_connecting (b : bool) (s : Adapter) : Adapter :=
  {| _address := _address s; _connecting := b; _options := _options s;
     _logger := _logger s; _relayServer := _relayServer s; _sdk := _sdk s |}.

Definition with_sdk (h : option WcSdk) (s : Adapter) : Adapter :=
  {| _address := _address s; _connecting := _connecting s;
     _options := _options s; _logger := _logger s;
     _relayServer := _relayServer s; _sdk := h |}.

(** [get address()] *)
Definition address (s : Adapter) : option string := _address s.

(** [get connecting()] *)
Definition connecting (s : Adapter) : bool := _connecting s.

(** [get connected()]: [!!this._address], false on [null] and on the empty
    string. *)
Definition connected (s : Adapter) : bool :=
  match _address s with
  | None => false
  | Some a => negb (String.eqb a "")
  end.

(** ** Statements: state, trace, exceptions and early return *)

(** How a block of statements completes: it falls through with a value, it
    executes [return] (with or without an operand), or it throws. *)
Inductive Completion (R A : Type) : Type :=
| Normal (a : A)
| Returned (r : option R)
| Thrown_ (e : Thrown).
Arguments Normal {R A} a.
Arguments Returned {R A} r.
Arguments Thrown_ {R A} e.

(** A block inside a method whose promise carries an [R]. *)
Definition M (R A : Type) : Type :=
  Adapter -> Completion R A * Adapter * Trace.

Definition ret {R A} (a : A) : M R A := fun s => (Normal a, s, []).

Definition bind {R A B} (m : M R A) (k : A -> M R B) : M R B :=
  fun s =>
    match m s with
    | (Normal a, s1, t1) =>
        match k a s1 with (c, s2, t2) => (c, s2, t1 ++ t2) end
    | (Returned r, s1, t1) => (Returned r, s1, t1)
    | (Thrown_ e, s1, t1) => (Thrown_ e, s1, t1)
    end.

Declare Scope stmt_scope.
Delimit Scope stmt_scope with stmt.
Notation "x <- m ;; k" := (bind m (fun x => k))
  (at level 61, m at next level, right associativity) : stmt_scope.
Notation "m ;; k" := (bind m (fun _ => k))
  (at level 61, right associativity) : stmt_scope.
Open Scope stmt_scope.

Definition throw {R A} (e : Thrown) : M R A := fun s => (Thrown_ e, s, []).

(** [return;] and [return v;] *)
Definition return_void {R A} : M R A := fun s => (Returned None, s, []).
Definition return_ {R A} (v : R) : M R A := fun s => (Returned (Some v), s, []).

Definition this {R} : M R Adapter := fun s => (Normal s, s, []).

Definition assign {R} (f : Adapter -> Adapter) : M R unit :=
  fun s => (Normal tt, f s, []).

Definition emit {R} (n : Notification) : M R unit :=
  fun s => (Normal tt, s, [Emit n]).

(** An SDK call: it is recorded, then it resolves or throws as the SDK
    decides. *)
Definition call {R A} (c : SdkCall) (o : Outcome A) : M R A :=
  fun s =>
    match o with
    | Resolves a => (Normal a, s, [Sdk c])
    | Rejects e => (Thrown_ e, s, [Sdk c])
    end.

Definition when {R} (b : bool) (m : M R unit) : M R unit :=
  if b then m else ret tt.

(** [try { m } catch (error) { h error }] *)
Definition try_catch {R A} (m : M R A) (h : Thrown -> M R A) : M R A :=
  fun s =>
    match m s with
    | (Thrown_ e, s1, t1) =>
        match h e s1 with (c, s2, t2) => (c, s2, t1 ++ t2) end
    | other => other
    end.

(** [try { m } finally { f }]: [f] runs on every completion of [m]; the
    completion of [m] stands unless [f] itself returns or throws. *)
Definition try_finally {R A} (m : M R A) (f : M R unit) : M R A :=
  fun s =>
    match m s with
    | (c, s1, t1) =>
        match f s1 with
        | (Normal _, s2, t2) => (c, s2, t1 ++ t2)
        | (Returned r, s2, t2) => (Returned r, s2, t1 ++ t2)
        | (Thrown_ e, s2, t2) => (Thrown_ e, s2, t1 ++ t2)
        end
    end.

(** [this._sdk.m]: a member access on the field, a [TypeError] when the
    field is [undefined]. *)
Definition this_sdk {R} : M R WcSdk :=
  s <- this ;;
  match _sdk s with
  | Some sdk => ret sdk
  | None => throw TypeError
  end.

(** The promise of an [async] method once its body has run. *)
Inductive Settled (R : Type) : Type :=
| Fulfilled (v : option R)
| Rejected (e : Thrown).
Arguments Fulfilled {R} v.
Arguments Rejected {R} e.

Definition settle {R} (c : Completion R unit) : Settled R :=
  match c with
  | Normal _ => Fulfilled None
  | Returned r => Fulfilled r
  | Thrown_ e => Rejected e
  end.

Definition async {R} (body : M R unit) (s : Adapter)
  : Settled R * Adapter * Trace :=
  match body s with (c, s', t) => (settle c, s', t) end.

(** ** The methods *)

(** What the SDK answers during one [connect]. *)
Record ConnectWorld : Type := {
  new_WcSdk : WcSdk;
  on_initClient : Outcome unit;
  on_connect : Outcome unit;
  session : Js.Value;
  on_getAccountAddress : Outcome (option string);
  on_subscribeToEvents : Outcome unit
}.

Definition connect (w : ConnectWorld) : M unit unit :=
  try_finally
    (try_catch
       (s <- this ;;
        when (connected s || connecting s) return_void ;;
        assign (with_connecting true) ;;
        try_catch
          (call (NewWcSdk (new_WcSdk w)) (Resolves tt) ;;
           assign (with_sdk (Some (new_WcSdk w))) ;;
           s <- this ;;
           sdk <- this_sdk ;;
           call (InitClient sdk (_logger s) (_relayServer s))
                (on_initClient w) ;;
           sdk <- this_sdk ;;
           call (SdkConnect sdk (_options s)) (on_connect w))
          (fun error =>
             if instanceof_WalletError error then throw error
             else throw (WalletConnectionError (message_of error)
                                               (Some error))) ;;
        this_sdk ;;
        when (negb (Js.truthy (session w)))
             (throw (WalletAccountError Js.Undefined None)) ;;
        try_catch
          (sdk <- this_sdk ;;
           a <- call (GetAccountAddress sdk) (on_getAccountAddress w) ;;
           assign (with_address a))
          (fun error =>
             throw (WalletAccountError (message_of error) (Some error))) ;;
        sdk <- this_sdk ;;
        call (SubscribeToEvents sdk) (on_subscribeToEvents w) ;;
        emit EvConnect)
       (fun error => emit (EvError error) ;; throw error))
    (assign (with_connecting false)).

Definition disconnect (on_disconnect : Outcome unit) : M unit unit :=
  s <- this ;;
  match _sdk s with
  | Some sdk =>
      try_catch
        (call (SdkDisconnect sdk) on_disconnect ;;
         assign (with_address None) ;;
         assign (with_sdk None))
        (fun error =>
           emit (EvError (WalletDisconnectionError (message_of error)
                                                   (Some error))))
  | None => ret tt
  end ;;
  emit EvDisconnect.

Definition invokeRead (request : ContractReadInvocation)
    (on_testInvoke : Outcome RpcCallResult)
  : M ContractReadInvocationResult unit :=
  s <- this ;;
  match _sdk s with
  | None => throw (WalletNotConnectedError Js.Undefined None)
  | Some sdk =>
      try_catch
        (response <- call (TestInvoke sdk (single_args request))
                          on_testInvoke ;;
         return_ (_responseToReadResult response))
        (fun error => emit (EvError error) ;; throw error)
  end.

Definition invokeReadMulti (request : ContractReadInvocationMulti)
    (on_multiTestInvoke : Outcome RpcCallResult)
  : M ContractReadInvocationResult unit :=
  s <- this ;;
  match _sdk s with
  | None => throw (WalletNotConnectedError Js.Undefined None)
  | Some sdk =>
      try_catch
        (response <- call (MultiTestInvoke sdk (multi_args request))
                          on_multiTestInvoke ;;
         return_ (_responseToReadResult response))
        (fun error => emit (EvError error) ;; throw error)
  end.

Definition invoke (request : ContractWriteInvocation)
    (on_invokeFunction : Outcome RpcCallResult)
  : M ContractWriteInvocationResult unit :=
  s <- this ;;
  match _sdk s with
  | None => throw (WalletNotConnectedError Js.Undefined None)
  | Some sdk =>
      try_catch
        (response <- call (InvokeFunction sdk (single_args request))
                          on_invokeFunction ;;
         return_ (_responseToWriteResult response))
        (fun error => emit (EvError error) ;; throw error)
  end.

Definition invokeMulti (request : ContractWriteInvocationMulti)
    (on_multiInvoke : Outcome RpcCallResult)
  : M ContractWriteInvocationResult unit :=
  s <- this ;;
  match _sdk s with
  | None => throw (WalletNotConnectedError Js.Undefined None)
  | Some sdk =>
      try_catch
        (response <- call (MultiInvoke sdk (multi_args request))
                          on_multiInvoke ;;
         return_ (_responseToWriteResult response))
        (fun error => emit (EvError error) ;; throw error)
  end.

(** The object literal that [connect] hands to [subscribeToEvents]: two
    arrow functions and, under [onDeleted], the method [this._disconnected]
    read off the adapter, without a [bind]. *)
Definition callbacks : Js.Props :=
  [("onProposal", Js.Function "onProposal");
   ("onCreated", Js.Function "onCreated");
   ("onDeleted", Js.Function "_disconnected")].

(** What [this] is while the body of a method runs: the adapter, in a call
    [adapter.m()]; the callbacks object, in a call [callbacks.onDeleted()];
    [undefined], in a call of the bare function (class code is strict). *)
Inductive Receiver : Type :=
| ThisAdapter
| ThisCallbacks
| ThisUndefined.

(** [_disconnected], a prototype method, as a function of its [this].  On
    the callbacks object [this._sdk] is a property lookup there, and
    [this.emit] is not a function; on [undefined] the first member access
    throws. *)
Definition _disconnected (receiver : Receiver) : M unit unit :=
  match receiver with
  | ThisAdapter =>
      s <- this ;;
      match _sdk s with
      | Some _ =>
          assign (with_address None) ;;
          assign (with_sdk None) ;;
          emit (EvError (WalletDisconnectedError Js.Undefined None)) ;;
          emit EvDisconnect
      | None => ret tt
      end
  | ThisCallbacks =>
      if Js.truthy (Js.get callbacks "_sdk")
      then throw TypeError
      else ret tt
  | ThisUndefined => throw TypeError
  end.

(** How the SDK calls the [onDeleted] it was given when a session is
    deleted: as a method of the callbacks object, or as a bare function. *)
Inductive Delivery : Type :=
| AsMethod
| AsFunction.

(** The session-deletion event as the adapter registered it. *)
Definition onDeleted (d : Delivery) : M unit unit :=
  match d with
  | AsMethod => _disconnected ThisCallbacks
  | AsFunction => _disconnected ThisUndefined
  end.

(** ** Sequences of calls *)

(** One call on the adapter, with what the SDK answers during it, or one
    session-deletion event fired by the SDK. *)
Inductive Op : Type :=
| OpConnect (w : ConnectWorld)
| OpDisconnect (on_disconnect : Outcome unit)
| OpSessionDeleted (d : Delivery)
| OpInvokeRead (request : ContractReadInvocation)
               (o : Outcome RpcCallResult)
| OpInvokeReadMulti (request : ContractReadInvocationMulti)
                    (o : Outcome RpcCallResult)
| OpInvoke (request : ContractWriteInvocation) (o : Outcome RpcCallResult)
| OpInvokeMulti (request : ContractWriteInvocationMulti)
                (o : Outcome RpcCallResult).

Definition after {R A} (m : M R A) (s : Adapter) : Adapter :=
  snd (fst (m s)).

Definition trace_of {R A} (m : M R A) (s : Adapter) : Trace :=
  snd (m s).

Definition step (op : Op) (s : Adapter) : Adapter :=
  match op with
  | OpConnect w => after (connect w) s
  | OpDisconnect o => after (disconnect o) s
  | OpSessionDeleted d => after (onDeleted d) s
  | OpInvokeRead request o => after (invokeRead request o) s
  | OpInvokeReadMulti request o => after (invokeReadMulti request o) s
  | OpInvoke request o => after (invoke request o) s
  | OpInvokeMulti request o => after (invokeMulti request o) s
  end.

Definition run (ops : list Op) (s : Adapter) : Adapter :=
  fold_left (fun s op => step op s) ops s.

(** The class of a thrown value, when it is a [WalletError]. *)
Definition error_class (e : Thrown) : option WalletErrorClass :=
  match e with
  | WalletError cls _ _ => Some cls
  | Foreign _ => None
  end.

(** The half of the pairing that every method keeps: an address is held
    only while an SDK handle is held. *)
Definition address_needs_sdk (s : Adapter) : Prop :=
  _address s <> None -> _sdk s <> None.

(** ** The translation rule as the specification words it *)

Definition terminal_state (response : RpcCallResult) : Js.Value :=
  Js.get (result response) "state".

(** A member of the error object, when the error object and the member are
    present. *)
Definition error_member (response : RpcCallResult) (k : string) : Js.Value :=
  match Js.get (result response) "error" with
  | Js.Object e => Js.get e k
  | _ => Js.Undefined
  end.

(** ** Sample inputs *)

Definition sample_config : WalletConnectWalletAdapterConfig :=
  {| options := Js.Object [("chains", Js.String "neo3:testnet")];
     logger := "debug";
     relayServer := "wss://relay.walletconnect.org" |}.

Definition sample_sdk : WcSdk := WcSdkInstance 0.

Definition relay_unreachable : Thrown :=
  Foreign (Js.Object [("message", Js.String "relay unreachable")]).

(** A pairing that completes and yields the account [NQ9abc]. *)
Definition world_paired : ConnectWorld :=
  {| new_WcSdk := sample_sdk;
     on_initClient := Resolves tt;
     on_connect := Resolves tt;
     session := Js.Object [("topic", Js.String "t0")];
     on_getAccountAddress := Resolves (Some "NQ9abc");
     on_subscribeToEvents := Resolves tt |}.

(** The relay cannot be reached: [initClient] rejects. *)
Definition world_init_fails : ConnectWorld :=
  {| new_WcSdk := sample_sdk;
     on_initClient := Rejects relay_unreachable;
     on_connect := Resolves tt;
     session := Js.Undefined;
     on_getAccountAddress := Resolves None;
     on_subscribeToEvents := Resolves tt |}.

(** The handshake completes, yet the SDK holds no session. *)
Definition world_no_session : ConnectWorld :=
  {| new_WcSdk := sample_sdk;
     on_initClient := Resolves tt;
     on_connect := Resolves tt;
     session := Js.Undefined;
     on_getAccountAddress := Resolves None;
     on_subscribeToEvents := Resolves tt |}.

Definition fresh : Adapter := constructor sample_config.

Definition paired : Adapter := after (connect world_paired) fresh.

Definition after_failed_connect : Adapter :=
  after (connect world_init_fails) fresh.

(** A [connect] suspended at [await this._sdk.initClient(...)]. *)
Definition pairing_in_flight : Adapter :=
  with_sdk (Some sample_sdk) (with_connecting true fresh).

Definition sample_request : ContractInvocation :=
  {| scriptHash := Js.String "0xd2a4cff31913016155e38e474a2c06d08be276cf";
     operation := Js.String "balanceOf";
     args := Js.Object [];
     abortOnFail := Js.Undefined;
     signers := None |}.

Definition sample_multi_request : ContractInvocationMulti :=
  {| invocations := Js.Object [];
     multi_signers := Js.Undefined |}.

Definition halt_response : RpcCallResult :=
  {| result := [("state", Js.String "HALT");
                ("gasconsumed", Js.String "1007390");
                ("stack", Js.Object [])] |}.

Definition fault_response : RpcCallResult :=
  {| result := [("state", Js.String "FAULT");
                ("error", Js.Object [("message", Js.String "m");
                                     ("code", Js.Number 7)])] |}.

(** ** Helpers for statements about connect and requests *)

(** The SDK calls of a [connect] that runs to its end, in source order. *)
Definition connect_calls (w : ConnectWorld) (s : Adapter) : list SdkCall :=
  [NewWcSdk (new_WcSdk w);
   InitClient (new_WcSdk w) (_logger s) (_relayServer s);
   SdkConnect (new_WcSdk w) (_options s);
   GetAccountAddress (new_WcSdk w);
   SubscribeToEvents (new_WcSdk w)].

(** The request [request] with its [signers] member replaced. *)
Definition with_signers (l : option (list Js.Value))
    (request : ContractInvocation) : ContractInvocation :=
  {| scriptHash := scriptHash request;
     operation := operation request;
     args := args request;
     abortOnFail := abortOnFail request;
     signers := l |}.

(** [sdk.subscribeToEvents] throws after the address was read. *)
Definition world_subscribe_fails : ConnectWorld :=
  {| new_WcSdk := sample_sdk;
     on_initClient := Resolves tt;
     on_connect := Resolves tt;
     session := Js.Object [("topic", Js.String "t0")];
     on_getAccountAddress := Resolves (Some "NQ9abc");
     on_subscribeToEvents := Rejects relay_unreachable |}.

(** [sdk.getAccountAddress] throws a wallet error of its own. *)
Definition world_account_fails : ConnectWorld :=
  {| new_WcSdk := sample_sdk;
     on_initClient := Resolves tt;
     on_connect := Resolves tt;
     session := Js.Object [("topic", Js.String "t0")];
     on_getAccountAddress :=
       Rejects (WalletNotConnectedError (Js.String "no account") None);
     on_subscribeToEvents := Resolves tt |}.

(** The pairing completes and the SDK reports an empty address. *)
Definition world_empty_address : ConnectWorld :=
  {| new_WcSdk := sample_sdk;
     on_initClient := Resolves tt;
     on_connect := Resolves tt;
     session := Js.Object [("topic", Js.String "t0")];
     on_getAccountAddress := Resolves (Some "");
     on_subscribeToEvents := Resolves tt |}.

Definition signed_request : ContractInvocation :=
  with_signers (Some [Js.String "alice"; Js.String "bob"]) sample_request.

Definition stateless_response : RpcCallResult :=
  {| result := [("gasconsumed", Js.String "0"); ("error", Js.Null)] |}.

(** * Properties *)

(** Runs a method body down to its completion, state and trace. *)
Ltac unfold_stmt :=
  unfold async, settle, after, trace_of, this_sdk, bind, try_catch,
    try_finally, when, call, emit, assign, this, ret, throw, return_,
    return_void in *.

(** ** Property copies *)

Lemma set_fresh (o : Js.Props) (k : string) (v : Js.Value) :
  ~ In k (map fst o) -> Js.set o k v = o ++ [(k, v)].
Proof.
  induction o as [| [k' v'] o IH]; simpl; intros Hk.
  - reflexivity.
  - destruct (String.eqb_spec k' k) as [-> | _].
    + exfalso. apply Hk. now left.
    + rewrite IH; [reflexivity | tauto].
Qed.

Lemma copy_onto (o acc : Js.Props) :
  NoDup (map fst (acc ++ o)) ->
  fold_left (fun a kv => Js.set a (fst kv) (snd kv)) o acc = acc ++ o.
Proof.
  revert acc.
  induction o as [| [k v] o IH]; intros acc Hnd; simpl.
  - now rewrite app_nil_r.
  - rewrite set_fresh.
    + rewrite IH; rewrite <- app_assoc; [reflexivity | exact Hnd].
    + rewrite map_app in Hnd. simpl in Hnd.
      apply NoDup_remove_2 in Hnd.
      intros Hin. apply Hnd. apply in_or_app. now left.
Qed.

(** Spreading an object yields an object with the same properties in the
    same order. *)
Lemma spread_wf (o : Js.Props) : Js.wf o -> Js.spread o = o.
Proof.
  intros Hwf. unfold Js.spread. now rewrite copy_onto.
Qed.

(** ** Running the methods *)

Lemma invokeRead_forwarded s sdk request o :
  _sdk s = Some sdk ->
  async (invokeRead request o) s =
    match o with
    | Resolves response =>
        (Fulfilled (Some (_responseToReadResult response)), s,
         [Sdk (TestInvoke sdk (single_args request))])
    | Rejects e =>
        (Rejected e, s,
         [Sdk (TestInvoke sdk (single_args request)); Emit (EvError e)])
    end.
Proof.
  intros H. unfold invokeRead. unfold_stmt. rewrite H.
  destruct o; reflexivity.
Qed.

Lemma invokeReadMulti_forwarded s sdk request o :
  _sdk s = Some sdk ->
  async (invokeReadMulti request o) s =
    match o with
    | Resolves response =>
        (Fulfilled (Some (_responseToReadResult response)), s,
         [Sdk (MultiTestInvoke sdk (multi_args request))])
    | Rejects e =>
        (Rejected e, s,
         [Sdk (MultiTestInvoke sdk (multi_args request)); Emit (EvError e)])
    end.
Proof.
  intros H. unfold invokeReadMulti. unfold_stmt. rewrite H.
  destruct o; reflexivity.
Qed.

Lemma invoke_forwarded s sdk request o :
  _sdk s = Some sdk ->
  async (invoke request o) s =
    match o with
    | Resolves response =>
        (Fulfilled (Some (_responseToWriteResult response)), s,
         [Sdk (InvokeFunction sdk (single_args request))])
    | Rejects e =>
        (Rejected e, s,
         [Sdk (InvokeFunction sdk (single_args request)); Emit (EvError e)])
    end.
Proof.
  intros H. unfold invoke. unfold_stmt. rewrite H.
  destruct o; reflexivity.
Qed.

Lemma invokeMulti_forwarded s sdk request o :
  _sdk s = Some sdk ->
  async (invokeMulti request o) s =
    match o with
    | Resolves response =>
        (Fulfilled (Some (_responseToWriteResult response)), s,
         [Sdk (MultiInvoke sdk (multi_args request))])
    | Rejects e =>
        (Rejected e, s,
         [Sdk (MultiInvoke sdk (multi_args request)); Emit (EvError e)])
    end.
Proof.
  intros H. unfold invokeMulti. unfold_stmt. rewrite H.
  destruct o; reflexivity.
Qed.

Lemma halt_test (v : Js.Value) :
  Js.strict_eq_string v "HALT" = true <-> v = Js.String "HALT".
Proof.
  destruct v; simpl; try (split; [discriminate | discriminate]).
  split.
  - intros H. apply String.eqb_eq in H. now subst.
  - intros H. injection H as ->. reflexivity.
Qed.

Lemma opt_member_error (response : RpcCallResult) (k : string) :
  Js.opt_member (Js.get (result response) "error") k =
  error_member response k.
Proof. reflexivity. Qed.

Lemma read_translation (response : RpcCallResult) :
  Js.wf (result response) ->
  (terminal_state response = Js.String "HALT" ->
   _responseToReadResult response = StatusSuccess (result response)) /\
  (terminal_state response <> Js.String "HALT" ->
   _responseToReadResult response =
     StatusError (error_member response "message")
                 (error_member response "code")).
Proof.
  intros Hwf. unfold _responseToReadResult, terminal_state.
  destruct (Js.strict_eq_string (Js.get (result response) "state") "HALT")
    eqn:E.
  - split; intros H.
    + now rewrite spread_wf.
    + apply halt_test in E. contradiction.
  - split; intros H.
    + apply halt_test in H. congruence.
    + now rewrite !opt_member_error.
Qed.

Lemma write_as_read (response : RpcCallResult) :
  _responseToWriteResult response = _responseToReadResult response.
Proof. reflexivity. Qed.

(** C6: the read-path and the write-path translation give the same result
    on every raw response. *)
Theorem read_write_translation_equal (response : RpcCallResult) :
  _responseToReadResult response = _responseToWriteResult response.
Proof.
  unfold _responseToReadResult, _responseToWriteResult.
  destruct (Js.strict_eq_string (Js.get (result response) "state") "HALT");
    reflexivity.
Qed.

(** C3: on a raw response whose terminal state is [HALT] the translation
    is [{status: success, data}] with [data] the whole raw payload; on any
    other terminal state it is [{status: error, message, code}] with the
    members of the error object when present; the four invocation calls
    return this translation of what the SDK resolves with. *)
Theorem result_translation
    (response : RpcCallResult) (s : Adapter) (sdk : WcSdk)
    (request : ContractInvocation) (requests : ContractInvocationMulti) :
  Js.wf (result response) ->
  _sdk s = Some sdk ->
  (terminal_state response = Js.String "HALT" ->
   _responseToReadResult response = StatusSuccess (result response) /\
   _responseToWriteResult response = StatusSuccess (result response)) /\
  (terminal_state response <> Js.String "HALT" ->
   _responseToReadResult response =
     StatusError (error_member response "message")
                 (error_member response "code") /\
   _responseToWriteResult response =
     StatusError (error_member response "message")
                 (error_member response "code")) /\
  fst (fst (async (invokeRead request (Resolves response)) s)) =
    Fulfilled (Some (_responseToReadResult response)) /\
  fst (fst (async (invokeReadMulti requests (Resolves response)) s)) =
    Fulfilled (Some (_responseToReadResult response)) /\
  fst (fst (async (invoke request (Resolves response)) s)) =
    Fulfilled (Some (_responseToWriteResult response)) /\
  fst (fst (async (invokeMulti requests (Resolves response)) s)) =
    Fulfilled (Some (_responseToWriteResult response)).
Proof.
  intros Hwf Hsdk.
  destruct (read_translation response Hwf) as [Hhalt Hother].
  repeat split.
  - now apply Hhalt.
  - rewrite write_as_read. now apply Hhalt.
  - now apply Hother.
  - rewrite write_as_read. now apply Hother.
  - now rewrite (invokeRead_forwarded s sdk).
  - now rewrite (invokeReadMulti_forwarded s sdk).
  - now rewrite (invoke_forwarded s sdk).
  - now rewrite (invokeMulti_forwarded s sdk).
Qed.

Lemma wf_halt_response : Js.wf (result halt_response).
Proof.
  unfold Js.wf; simpl.
  repeat constructor; simpl; intuition discriminate.
Defined.

Lemma result_translation_witness :
  Js.wf (result halt_response) /\
  _sdk paired = Some sample_sdk /\
  _responseToReadResult halt_response = StatusSuccess (result halt_response) /\
  fst (fst (async (invoke sample_request (Resolves halt_response)) paired)) =
    Fulfilled (Some (StatusSuccess (result halt_response))).
Proof.
  pose proof (result_translation halt_response paired sample_sdk
                sample_request sample_multi_request
                wf_halt_response eq_refl) as H.
  destruct H as (Hhalt & _ & _ & _ & Hinvoke & _).
  destruct (Hhalt eq_refl) as [Hread Hwrite].
  split; [exact wf_halt_response |].
  split; [reflexivity |].
  split; [exact Hread |].
  rewrite Hinvoke. now rewrite Hwrite.
Defined.

(** ** Invocations and the SDK handle *)

(** X20: an invocation call made while no SDK handle is held rejects at
    once with the not-connected error, performs no SDK call, emits nothing
    and leaves the adapter as it was. *)
Theorem invocation_without_sdk
    (s : Adapter) (request : ContractInvocation)
    (requests : ContractInvocationMulti) (o : Outcome RpcCallResult) :
  _sdk s = None ->
  async (invokeRead request o) s =
    (Rejected (WalletNotConnectedError Js.Undefined None), s, []) /\
  async (invokeReadMulti requests o) s =
    (Rejected (WalletNotConnectedError Js.Undefined None), s, []) /\
  async (invoke request o) s =
    (Rejected (WalletNotConnectedError Js.Undefined None), s, []) /\
  async (invokeMulti requests o) s =
    (Rejected (WalletNotConnectedError Js.Undefined None), s, []).
Proof.
  intros H.
  unfold invokeRead, invokeReadMulti, invoke, invokeMulti.
  unfold_stmt. rewrite H. repeat split.
Qed.

Lemma invocation_without_sdk_witness :
  _sdk fresh = None /\
  async (invokeRead sample_request (Resolves halt_response)) fresh =
    (Rejected (WalletNotConnectedError Js.Undefined None), fresh, []).
Proof.
  split.
  - reflexivity.
  - exact (proj1 (invocation_without_sdk fresh sample_request
                    sample_multi_request (Resolves halt_response) eq_refl)).
Defined.

(** C1, at the failing input: after a [connect] that was rejected because
    [initClient] threw, the SDK instance made for it is still in [_sdk];
    [connected] is false, yet [invokeRead] is forwarded to that instance and
    fulfils with the translated response instead of rejecting with the
    not-connected error. *)
Lemma invocation_when_not_connected_forwarded :
  connected after_failed_connect = false /\
  fst (fst (async (invokeRead sample_request (Resolves halt_response))
                  after_failed_connect)) =
    Fulfilled (Some (StatusSuccess (result halt_response))) /\
  sdk_calls (snd (async (invokeRead sample_request (Resolves halt_response))
                        after_failed_connect)) =
    [TestInvoke sample_sdk (single_args sample_request)].
Proof. repeat split. Qed.

(** ** The session handle and the account address *)

(** C2, at the failing input: a [connect] on a new adapter whose
    [initClient] throws is rejected with a connection error and leaves the
    SDK instance in [_sdk] while [_address] is still [null]. *)
Theorem failed_connect_keeps_sdk :
  fst (fst (async (connect world_init_fails) fresh)) =
    Rejected (WalletConnectionError (Js.String "relay unreachable")
                                    (Some relay_unreachable)) /\
  _sdk (run [OpConnect world_init_fails] fresh) = Some sample_sdk /\
  _address (run [OpConnect world_init_fails] fresh) = None /\
  connected (run [OpConnect world_init_fails] fresh) = false.
Proof. repeat split. Qed.

(** [disconnect] and the session-deletion handler clear both fields or
    neither. *)
Lemma disconnect_clears_together (s : Adapter) (o : Outcome unit) :
  after (disconnect o) s = s \/
  after (disconnect o) s = with_sdk None (with_address None s).
Proof.
  unfold disconnect. unfold_stmt.
  destruct (_sdk s); [destruct o |]; simpl; auto.
Qed.

Lemma onDeleted_keeps_state (d : Delivery) (s : Adapter) :
  after (onDeleted d) s = s.
Proof.
  destruct d; reflexivity.
Qed.

Lemma invocations_keep_state (s : Adapter) :
  (forall request o, after (invokeRead request o) s = s) /\
  (forall request o, after (invokeReadMulti request o) s = s) /\
  (forall request o, after (invoke request o) s = s) /\
  (forall request o, after (invokeMulti request o) s = s).
Proof.
  unfold invokeRead, invokeReadMulti, invoke, invokeMulti. unfold_stmt.
  repeat split; intros request o; destruct (_sdk s); try reflexivity;
    destruct o; reflexivity.
Qed.

Lemma connect_address_needs_sdk (w : ConnectWorld) (s : Adapter) :
  address_needs_sdk s -> address_needs_sdk (after (connect w) s).
Proof.
  unfold address_needs_sdk, connect. unfold_stmt.
  destruct (connected s || connecting s) eqn:G; simpl.
  - exact (fun H => H).
  - intros _.
    destruct (on_initClient w); simpl; [| destruct (instanceof_WalletError e);
      simpl; discriminate].
    destruct (on_connect w); simpl; [| destruct (instanceof_WalletError e);
      simpl; discriminate].
    destruct (Js.truthy (session w)); simpl; [| discriminate].
    destruct (on_getAccountAddress w); simpl; [| discriminate].
    destruct (on_subscribeToEvents w); simpl; discriminate.
Qed.

Lemma step_address_needs_sdk (op : Op) (s : Adapter) :
  address_needs_sdk s -> address_needs_sdk (step op s).
Proof.
  intros H. destruct op; simpl.
  - now apply connect_address_needs_sdk.
  - destruct (disconnect_clears_together s on_disconnect) as [-> | ->];
      [exact H | intros A; now elim A].
  - now rewrite onDeleted_keeps_state.
  - now rewrite (proj1 (invocations_keep_state s)).
  - now rewrite (proj1 (proj2 (invocations_keep_state s))).
  - now rewrite (proj1 (proj2 (proj2 (invocations_keep_state s)))).
  - now rewrite (proj2 (proj2 (proj2 (invocations_keep_state s)))).
Qed.

(** After every sequence of calls on a new adapter, a held address comes
    with a held SDK handle, and so does [connected]. *)
Lemma run_address_needs_sdk (config : WalletConnectWalletAdapterConfig)
    (ops : list Op) :
  address_needs_sdk (run ops (constructor config)) /\
  (connected (run ops (constructor config)) = true ->
   _address (run ops (constructor config)) <> None /\
   _sdk (run ops (constructor config)) <> None).
Proof.
  assert (Inv : address_needs_sdk (run ops (constructor config))).
  { unfold run.
    assert (I0 : address_needs_sdk (constructor config))
      by (intros A; now elim A).
    revert I0. generalize (constructor config).
    induction ops as [| op ops IH]; intros s I0; simpl.
    - exact I0.
    - apply IH. now apply step_address_needs_sdk. }
  split; [exact Inv |].
  intros C.
  assert (A : _address (run ops (constructor config)) <> None).
  { unfold connected in C.
    destruct (_address (run ops (constructor config))); congruence. }
  split; [exact A | exact (Inv A)].
Qed.

(** ** connect *)

Lemma with_connecting_same (s : Adapter) :
  _connecting s = false -> with_connecting false s = s.
Proof.
  destruct s as [a c o l r h]; simpl; intros ->; reflexivity.
Qed.

(** C4, as the code has it: a [connect] made while [connected] or
    [connecting] is true performs no SDK call, emits nothing and resolves;
    it leaves the address and the SDK handle as they were and the
    [connecting] flag false, so the adapter is unchanged when the flag was
    false on entry. *)
Theorem connect_guarded (w : ConnectWorld) (s : Adapter) :
  connected s || connecting s = true ->
  async (connect w) s = (Fulfilled None, with_connecting false s, []) /\
  _address (after (connect w) s) = _address s /\
  _sdk (after (connect w) s) = _sdk s /\
  _connecting (after (connect w) s) = false /\
  (_connecting s = false -> after (connect w) s = s).
Proof.
  intros G.
  assert (E : async (connect w) s =
              (Fulfilled None, with_connecting false s, [])).
  { unfold connect. unfold_stmt. rewrite G. reflexivity. }
  assert (A : after (connect w) s = with_connecting false s).
  { unfold async in E. unfold after.
    destruct (connect w s) as [[c s'] t]. simpl. congruence. }
  rewrite A. repeat split; try assumption.
  apply with_connecting_same.
Qed.

Lemma connect_guarded_witness :
  connected paired || connecting paired = true /\
  async (connect world_paired) paired = (Fulfilled None, paired, []).
Proof.
  split.
  - reflexivity.
  - exact (proj1 (connect_guarded world_paired paired eq_refl)).
Defined.

(** C4, as stated, fails: a [connect] made while [connecting] is true
    returns with the [connecting] flag cleared, so the adapter is not what
    it was before the call. *)
Lemma connect_while_connecting_clears_flag :
  connecting pairing_in_flight = true /\
  fst (fst (async (connect world_paired) pairing_in_flight)) =
    Fulfilled None /\
  _connecting (after (connect world_paired) pairing_in_flight) = false /\
  after (connect world_paired) pairing_in_flight <> pairing_in_flight.
Proof.
  split; [reflexivity |]. split; [reflexivity |]. split; [reflexivity |].
  discriminate.
Qed.

(** C8: whatever the adapter and the SDK do, the [connecting] flag is
    false once [connect] has settled. *)
Theorem connect_clears_connecting (w : ConnectWorld) (s : Adapter) :
  connecting (after (connect w) s) = false.
Proof.
  unfold connect, after, try_finally.
  match goal with
  | |- context [match ?body s with _ => _ end] =>
      destruct (body s) as [[c s1] t1]
  end.
  reflexivity.
Qed.

(** C7: when [initClient] and the handshake resolve and the SDK then holds
    no session, [connect] rejects with a [WalletAccountError], which it
    also emits, and not with a [WalletConnectionError]. *)
Theorem connect_without_session (w : ConnectWorld) (s : Adapter) :
  connected s = false ->
  connecting s = false ->
  on_initClient w = Resolves tt ->
  on_connect w = Resolves tt ->
  Js.truthy (session w) = false ->
  fst (fst (async (connect w) s)) =
    Rejected (WalletAccountError Js.Undefined None) /\
  notifications (trace_of (connect w) s) =
    [EvError (WalletAccountError Js.Undefined None)] /\
  forall e, fst (fst (async (connect w) s)) = Rejected e ->
            error_class e = Some AccountErrorClass /\
            error_class e <> Some ConnectionErrorClass.
Proof.
  intros C G I H T.
  assert (E : fst (fst (async (connect w) s)) =
              Rejected (WalletAccountError Js.Undefined None)).
  { unfold connect. unfold_stmt. rewrite C, G, I, H, T. reflexivity. }
  split; [exact E |]. split.
  - unfold connect. unfold_stmt. rewrite C, G, I, H, T. reflexivity.
  - intros e He. rewrite E in He. injection He as <-.
    split; [reflexivity | discriminate].
Qed.

Lemma connect_without_session_witness :
  fst (fst (async (connect world_no_session) fresh)) =
    Rejected (WalletAccountError Js.Undefined None).
Proof.
  exact (proj1 (connect_without_session world_no_session fresh
                  eq_refl eq_refl eq_refl eq_refl eq_refl)).
Defined.

(** ** disconnect *)

(** C5: every [disconnect] resolves and emits [disconnect] exactly once,
    as its last notification; when an SDK handle is held and the teardown
    throws it first emits one [error] carrying a
    [WalletDisconnectionError], and otherwise it emits nothing else. *)
Theorem disconnect_notifies (o : Outcome unit) (s : Adapter) :
  fst (fst (async (disconnect o) s)) = Fulfilled None /\
  List.length
    (filter is_disconnect (notifications (trace_of (disconnect o) s))) = 1 /\
  notifications (trace_of (disconnect o) s) =
    match _sdk s, o with
    | Some _, Rejects e =>
        [EvError (WalletDisconnectionError (message_of e) (Some e));
         EvDisconnect]
    | _, _ => [EvDisconnect]
    end.
Proof.
  unfold disconnect. unfold_stmt.
  destruct (_sdk s); [destruct o |]; repeat split.
Qed.

(** C10: when the teardown call of [disconnect] throws, the adapter is left
    exactly as it was, SDK handle and address included, and each of the four
    invocation calls made next is forwarded to that SDK handle and settles
    as the SDK call does. *)
Theorem failed_disconnect_keeps_session
    (s : Adapter) (sdk : WcSdk) (e : Thrown)
    (request : ContractInvocation) (requests : ContractInvocationMulti)
    (o : Outcome RpcCallResult) :
  _sdk s = Some sdk ->
  let s' := after (disconnect (Rejects e)) s in
  s' = s /\
  _sdk s' = Some sdk /\
  _address s' = _address s /\
  sdk_calls (trace_of (invokeRead request o) s') =
    [TestInvoke sdk (single_args request)] /\
  sdk_calls (trace_of (invokeReadMulti requests o) s') =
    [MultiTestInvoke sdk (multi_args requests)] /\
  sdk_calls (trace_of (invoke request o) s') =
    [InvokeFunction sdk (single_args request)] /\
  sdk_calls (trace_of (invokeMulti requests o) s') =
    [MultiInvoke sdk (multi_args requests)] /\
  fst (fst (async (invokeRead request o) s')) =
    match o with
    | Resolves response => Fulfilled (Some (_responseToReadResult response))
    | Rejects e' => Rejected e'
    end.
Proof.
  intros H s'.
  assert (E : after (disconnect (Rejects e)) s = s).
  { unfold disconnect. unfold_stmt. rewrite H. reflexivity. }
  subst s'. rewrite E. split; [reflexivity |]. split; [exact H |].
  split; [reflexivity |].
  unfold trace_of.
  pose proof (invokeRead_forwarded s sdk request o H) as R1.
  pose proof (invokeReadMulti_forwarded s sdk requests o H) as R2.
  pose proof (invoke_forwarded s sdk request o H) as R3.
  pose proof (invokeMulti_forwarded s sdk requests o H) as R4.
  unfold async in *.
  destruct (invokeRead request o s) as [[c1 s1] t1].
  destruct (invokeReadMulti requests o s) as [[c2 s2] t2].
  destruct (invoke request o s) as [[c3 s3] t3].
  destruct (invokeMulti requests o s) as [[c4 s4] t4].
  simpl. destruct o; inversion R1; inversion R2; inversion R3; inversion R4;
    subst; repeat split.
Qed.

Lemma failed_disconnect_keeps_session_witness :
  _sdk paired = Some sample_sdk /\
  after (disconnect (Rejects relay_unreachable)) paired = paired /\
  sdk_calls (trace_of (invokeRead sample_request (Resolves halt_response))
               (after (disconnect (Rejects relay_unreachable)) paired)) =
    [TestInvoke sample_sdk (single_args sample_request)].
Proof.
  pose proof (failed_disconnect_keeps_session paired sample_sdk
                relay_unreachable sample_request sample_multi_request
                (Resolves halt_response) eq_refl) as H.
  simpl in H.
  destruct H as (Hsame & _ & _ & Hcall & _).
  split; [reflexivity |]. split; [exact Hsame | exact Hcall].
Defined.

(** ** Session deletion *)

(** C9, at the failing input: after a pairing, a session deletion makes
    the SDK call the [onDeleted] it was given, which is [_disconnected]
    without its adapter.  Called as a method of the callbacks object it
    finds no [_sdk] there and returns; called as a bare function it throws
    a [TypeError].  Either way nothing is emitted and the adapter still
    holds the SDK instance and the address, after the first event as after
    the second.  Only with the adapter as [this] does the same body clear
    both fields and emit [error], then [disconnect]. *)
Theorem session_deletion_event_unbound :
  onDeleted AsMethod paired = (Normal tt, paired, []) /\
  onDeleted AsFunction paired = (Thrown_ TypeError, paired, []) /\
  run [OpSessionDeleted AsMethod; OpSessionDeleted AsMethod] paired
    = paired /\
  _sdk paired = Some sample_sdk /\
  _address paired = Some "NQ9abc" /\
  _disconnected ThisAdapter paired =
    (Normal tt, fresh,
     [Emit (EvError (WalletDisconnectedError Js.Undefined None));
      Emit EvDisconnect]).
Proof.
  repeat split.
Qed.

(** ** Worked cases *)

(** A non-[HALT] result with the error object [{message: "m", code: 7}]
    comes back from all four calls as [{status: error, message: "m",
    code: 7}]. *)
Example fault_is_reported :
  map (fun r => fst (fst r))
    [async (invokeRead sample_request (Resolves fault_response)) paired;
     async (invokeReadMulti sample_multi_request (Resolves fault_response))
           paired;
     async (invoke sample_request (Resolves fault_response)) paired;
     async (invokeMulti sample_multi_request (Resolves fault_response))
           paired] =
  repeat (Fulfilled (Some (StatusError (Js.String "m") (Js.Number 7)))) 4.
Proof. reflexivity. Qed.

(** A pairing that completes emits [connect] once and no [error]. *)
Example paired_connect_notifies :
  notifications (trace_of (connect world_paired) fresh) = [EvConnect] /\
  connected paired = true /\ connecting paired = false.
Proof. repeat split. Qed.

(** * Further properties of the adapter *)

(** ** A new adapter *)

(** X1: whatever the configuration, a newly constructed adapter is neither
    connected nor connecting; each invocation on it rejects with the
    not-connected error without reaching the SDK, [disconnect] only emits
    [disconnect], and a session deletion does nothing, whatever [this] is
    when its handler runs. *)
Theorem new_adapter_is_disconnected
    (config : WalletConnectWalletAdapterConfig)
    (request : ContractInvocation) (requests : ContractInvocationMulti)
    (o : Outcome RpcCallResult) (d : Outcome unit) :
  let s := constructor config in
  connected s = false /\ connecting s = false /\ address s = None /\
  map (fun r => fst (fst r))
      [async (invokeRead request o) s;
       async (invokeReadMulti requests o) s;
       async (invoke request o) s;
       async (invokeMulti requests o) s] =
    repeat (Rejected (WalletNotConnectedError Js.Undefined None)) 4 /\
  trace_of (invokeRead request o) s ++
  trace_of (invokeReadMulti requests o) s ++
  trace_of (invoke request o) s ++
  trace_of (invokeMulti requests o) s = [] /\
  async (disconnect d) s = (Fulfilled None, s, [Emit EvDisconnect]) /\
  _disconnected ThisAdapter s = (Normal tt, s, []) /\
  onDeleted AsMethod s = (Normal tt, s, []) /\
  onDeleted AsFunction s = (Thrown_ TypeError, s, []).
Proof.
  simpl. repeat split.
Qed.

(** ** connect, step by step *)

(** X2: a [connect] that passes the guard and whose SDK steps all succeed
    with a session present calls, in this order, the constructor,
    [initClient] with the configured logger and relay server, [connect]
    with the configured options, [getAccountAddress] and
    [subscribeToEvents], then emits [connect] once; it stores the address
    the SDK returned and the new SDK instance, and resolves. *)
Theorem connect_succeeds (w : ConnectWorld) (s : Adapter)
    (a : option string) :
  connected s || connecting s = false ->
  on_initClient w = Resolves tt ->
  on_connect w = Resolves tt ->
  Js.truthy (session w) = true ->
  on_getAccountAddress w = Resolves a ->
  on_subscribeToEvents w = Resolves tt ->
  async (connect w) s =
    (Fulfilled None,
     with_connecting false (with_address a (with_sdk (Some (new_WcSdk w)) s)),
     map Sdk (connect_calls w s) ++ [Emit EvConnect]) /\
  address (after (connect w) s) = a /\
  _sdk (after (connect w) s) = Some (new_WcSdk w).
Proof.
  intros G I C T A U.
  assert (E : async (connect w) s =
    (Fulfilled None,
     with_connecting false (with_address a (with_sdk (Some (new_WcSdk w)) s)),
     map Sdk (connect_calls w s) ++ [Emit EvConnect])).
  { unfold connect. unfold_stmt. rewrite G, I, C, T, A, U. reflexivity. }
  split; [exact E |].
  unfold async in E. unfold after, address.
  destruct (connect w s) as [[c s'] t]. simpl.
  injection E as _ -> _. split; reflexivity.
Qed.

Lemma connect_succeeds_witness :
  async (connect world_paired) fresh =
    (Fulfilled None, paired,
     map Sdk (connect_calls world_paired fresh) ++ [Emit EvConnect]) /\
  address paired = Some "NQ9abc".
Proof.
  destruct (connect_succeeds world_paired fresh (Some "NQ9abc")
              eq_refl eq_refl eq_refl eq_refl eq_refl eq_refl)
    as (H1 & H2 & _).
  split; [exact H1 | exact H2].
Defined.

(** X3: [connect] notifies then propagates.  When it rejects with [e] it
    has emitted exactly one notification, [error] carrying that same [e];
    when it resolves it has emitted exactly [connect], or nothing at all if
    the guard stopped it.  It never emits [disconnect]. *)
Theorem connect_notifications (w : ConnectWorld) (s : Adapter) :
  notifications (trace_of (connect w) s) =
    match fst (fst (async (connect w) s)) with
    | Rejected e => [EvError e]
    | Fulfilled _ =>
        if connected s || connecting s then [] else [EvConnect]
    end.
Proof.
  unfold connect. unfold_stmt.
  destruct w as [h i c se g u]; simpl.
  destruct (connected s || connecting s); [reflexivity |].
  destruct i as [[] | ei]; simpl;
    [| destruct (instanceof_WalletError ei); reflexivity].
  destruct c as [[] | ec]; simpl;
    [| destruct (instanceof_WalletError ec); reflexivity].
  destruct (Js.truthy se); simpl; [| reflexivity].
  destruct g as [a | eg]; simpl; [| reflexivity].
  destruct u as [[] | eu]; reflexivity.
Qed.

(** X4: when [initClient] or the handshake throws, [connect] rejects
    without asking for the address or subscribing.  A thrown [WalletError]
    is re-raised as it is; any other value is wrapped in a
    [WalletConnectionError] that carries its message and the value itself.
    The address is untouched, so the adapter stays not connected, while the
    new SDK instance stays in [_sdk]. *)
Theorem connect_handshake_fails (w : ConnectWorld) (s : Adapter)
    (e : Thrown) :
  connected s || connecting s = false ->
  on_initClient w = Rejects e \/
  (on_initClient w = Resolves tt /\ on_connect w = Rejects e) ->
  fst (fst (async (connect w) s)) =
    Rejected (if instanceof_WalletError e then e
              else WalletConnectionError (message_of e) (Some e)) /\
  (In (GetAccountAddress (new_WcSdk w))
      (sdk_calls (trace_of (connect w) s)) -> False) /\
  (In (SubscribeToEvents (new_WcSdk w))
      (sdk_calls (trace_of (connect w) s)) -> False) /\
  _address (after (connect w) s) = _address s /\
  connected (after (connect w) s) = false /\
  _sdk (after (connect w) s) = Some (new_WcSdk w).
Proof.
  intros G H.
  assert (C : connected s = false)
    by (destruct (connected s); [discriminate | reflexivity]).
  unfold connect. unfold_stmt. rewrite G.
  destruct H as [I | [I Hc]]; rewrite I; simpl; [| rewrite Hc; simpl];
    destruct (instanceof_WalletError e); simpl;
    (repeat split; try exact C;
     intros F; simpl in F; intuition discriminate).
Qed.

Lemma connect_handshake_fails_witness :
  fst (fst (async (connect world_init_fails) fresh)) =
    Rejected (WalletConnectionError (Js.String "relay unreachable")
                                    (Some relay_unreachable)) /\
  connected (after (connect world_init_fails) fresh) = false.
Proof.
  destruct (connect_handshake_fails world_init_fails fresh relay_unreachable
              eq_refl (or_introl eq_refl))
    as (H1 & _ & _ & _ & H2 & _).
  split; [exact H1 | exact H2].
Defined.

(** X5: when [getAccountAddress] throws, [connect] always wraps the thrown
    value in a [WalletAccountError] carrying its message and the value,
    also when that value is itself a [WalletError]; it does not subscribe
    to events, and leaves the address as it was. *)
Theorem connect_account_fails (w : ConnectWorld) (s : Adapter)
    (e : Thrown) :
  connected s || connecting s = false ->
  on_initClient w = Resolves tt ->
  on_connect w = Resolves tt ->
  Js.truthy (session w) = true ->
  on_getAccountAddress w = Rejects e ->
  async (connect w) s =
    (Rejected (WalletAccountError (message_of e) (Some e)),
     with_connecting false (with_sdk (Some (new_WcSdk w)) s),
     map Sdk (firstn 4 (connect_calls w s)) ++
     [Emit (EvError (WalletAccountError (message_of e) (Some e)))]) /\
  connected (after (connect w) s) = false.
Proof.
  intros G I C T A.
  assert (Cn : connected s = false)
    by (destruct (connected s); [discriminate | reflexivity]).
  unfold connect. unfold_stmt. rewrite G, I, C, T, A. simpl.
  split; [reflexivity | exact Cn].
Qed.

Lemma connect_account_fails_witness :
  fst (fst (async (connect world_account_fails) fresh)) =
    Rejected
      (WalletAccountError (Js.String "no account")
         (Some (WalletNotConnectedError (Js.String "no account") None))).
Proof.
  pose proof (connect_account_fails world_account_fails fresh
                (WalletNotConnectedError (Js.String "no account") None)
                eq_refl eq_refl eq_refl eq_refl eq_refl) as [H _].
  now rewrite H.
Defined.

(** X6: when [subscribeToEvents] throws, [connect] rejects with the thrown
    value as it is, wrapped in nothing, and emits it as [error] instead of
    [connect]; yet the address read just before stays stored with the SDK
    instance, so with a non-empty address the adapter reports [connected]
    after the rejected call and the next [connect] is stopped by the
    guard. *)
Theorem connect_subscribe_fails (w w' : ConnectWorld) (s : Adapter)
    (a : string) (e : Thrown) :
  connected s || connecting s = false ->
  on_initClient w = Resolves tt ->
  on_connect w = Resolves tt ->
  Js.truthy (session w) = true ->
  on_getAccountAddress w = Resolves (Some a) ->
  a <> "" ->
  on_subscribeToEvents w = Rejects e ->
  async (connect w) s =
    (Rejected e,
     with_connecting false
       (with_address (Some a) (with_sdk (Some (new_WcSdk w)) s)),
     map Sdk (connect_calls w s) ++ [Emit (EvError e)]) /\
  connected (after (connect w) s) = true /\
  trace_of (connect w') (after (connect w) s) = [].
Proof.
  intros G I C T A N U.
  assert (E : async (connect w) s =
    (Rejected e,
     with_connecting false
       (with_address (Some a) (with_sdk (Some (new_WcSdk w)) s)),
     map Sdk (connect_calls w s) ++ [Emit (EvError e)])).
  { unfold connect. unfold_stmt. rewrite G, I, C, T, A, U. reflexivity. }
  split; [exact E |].
  assert (S' : after (connect w) s =
               with_connecting false
                 (with_address (Some a) (with_sdk (Some (new_WcSdk w)) s))).
  { unfold async in E. unfold after.
    destruct (connect w s) as [[c s'] t]. simpl. congruence. }
  rewrite S'.
  assert (K : connected
                (with_connecting false
                   (with_address (Some a)
                      (with_sdk (Some (new_WcSdk w)) s))) = true).
  { unfold connected. simpl.
    destruct (String.eqb_spec a ""); [contradiction | reflexivity]. }
  split; [exact K |].
  unfold connect. unfold_stmt. rewrite K. reflexivity.
Qed.

Lemma connect_subscribe_fails_witness :
  fst (fst (async (connect world_subscribe_fails) fresh)) =
    Rejected relay_unreachable /\
  connected (after (connect world_subscribe_fails) fresh) = true.
Proof.
  assert (N : "NQ9abc" <> "") by discriminate.
  destruct (connect_subscribe_fails world_subscribe_fails world_paired fresh
              "NQ9abc" relay_unreachable
              eq_refl eq_refl eq_refl eq_refl eq_refl N eq_refl)
    as (H1 & H2 & _).
  split; [now rewrite H1 | exact H2].
Defined.

(** X7: when the pairing completes but the SDK returns [null] or the empty
    string as address, [connect] still resolves and emits [connect], while
    [connected] stays false; the SDK instance is held, so [disconnect]
    still asks the SDK for a teardown. *)
Theorem connect_without_address (w : ConnectWorld) (s : Adapter)
    (a : option string) (d : Outcome unit) :
  connected s || connecting s = false ->
  on_initClient w = Resolves tt ->
  on_connect w = Resolves tt ->
  Js.truthy (session w) = true ->
  on_getAccountAddress w = Resolves a ->
  on_subscribeToEvents w = Resolves tt ->
  a = None \/ a = Some "" ->
  fst (fst (async (connect w) s)) = Fulfilled None /\
  notifications (trace_of (connect w) s) = [EvConnect] /\
  connected (after (connect w) s) = false /\
  sdk_calls (trace_of (disconnect d) (after (connect w) s)) =
    [SdkDisconnect (new_WcSdk w)].
Proof.
  intros G I C T A U E.
  unfold connect, disconnect. unfold_stmt. rewrite G, I, C, T, A, U. simpl.
  unfold connected. simpl.
  destruct E as [-> | ->]; destruct d; repeat split.
Qed.

Lemma connect_without_address_witness :
  fst (fst (async (connect world_empty_address) fresh)) = Fulfilled None /\
  connected (after (connect world_empty_address) fresh) = false.
Proof.
  destruct (connect_without_address world_empty_address fresh (Some "")
              (Resolves tt)
              eq_refl eq_refl eq_refl eq_refl eq_refl eq_refl
              (or_intror eq_refl))
    as (H1 & _ & H2 & _).
  split; [exact H1 | exact H2].
Defined.

(** X8: a [connect] that passes the guard always creates a new SDK
    instance and keeps it in [_sdk], whatever follows; its SDK calls are
    the first two to five of constructor, [initClient], [connect],
    [getAccountAddress], [subscribeToEvents], in that order, and all five
    when it resolves.  It never asks an SDK instance held before for a
    teardown. *)
Theorem connect_call_order (w : ConnectWorld) (s : Adapter) :
  connected s || connecting s = false ->
  _sdk (after (connect w) s) = Some (new_WcSdk w) /\
  (exists n, 2 <= n <= 5 /\
     sdk_calls (trace_of (connect w) s) = firstn n (connect_calls w s)) /\
  (forall v, fst (fst (async (connect w) s)) = Fulfilled v ->
     sdk_calls (trace_of (connect w) s) = connect_calls w s) /\
  (forall sdk, In (SdkDisconnect sdk) (sdk_calls (trace_of (connect w) s)) ->
     False).
Proof.
  intros G. unfold connect, connect_calls. unfold_stmt. rewrite G.
  destruct w as [h i c se g u]; simpl.
  destruct i as [[] | ei]; simpl.
  2:{ destruct (instanceof_WalletError ei); simpl;
      (split; [reflexivity |]; split; [exists 2; split; [lia | reflexivity] |];
       split; [discriminate | intros sdk F; simpl in F;
                              intuition discriminate]). }
  destruct c as [[] | ec]; simpl.
  2:{ destruct (instanceof_WalletError ec); simpl;
      (split; [reflexivity |]; split; [exists 3; split; [lia | reflexivity] |];
       split; [discriminate | intros sdk F; simpl in F;
                              intuition discriminate]). }
  destruct (Js.truthy se); simpl.
  2:{ split; [reflexivity |]. split; [exists 3; split; [lia | reflexivity] |].
      split; [discriminate | intros sdk F; simpl in F;
                             intuition discriminate]. }
  destruct g as [a | eg]; simpl.
  2:{ split; [reflexivity |]. split; [exists 4; split; [lia | reflexivity] |].
      split; [discriminate | intros sdk F; simpl in F;
                             intuition discriminate]. }
  destruct u as [[] | eu]; simpl;
    (split; [reflexivity |]; split; [exists 5; split; [lia | reflexivity] |];
     split; [try discriminate; reflexivity
            | intros sdk F; simpl in F; intuition discriminate]).
Qed.

Lemma connect_call_order_witness :
  _sdk (after (connect world_no_session) after_failed_connect) =
    Some sample_sdk /\
  sdk_calls (trace_of (connect world_paired) fresh) =
    connect_calls world_paired fresh.
Proof.
  split.
  - exact (proj1 (connect_call_order world_no_session after_failed_connect
                    eq_refl)).
  - exact (proj1 (proj2 (proj2 (connect_call_order world_paired fresh
                                  eq_refl))) None eq_refl).
Defined.

Lemma connect_starts_with_new_sdk (w : ConnectWorld) (s : Adapter) :
  connected s || connecting s = false ->
  _sdk (after (connect w) s) = Some (new_WcSdk w) /\
  hd_error (sdk_calls (trace_of (connect w) s)) =
    Some (NewWcSdk (new_WcSdk w)).
Proof.
  intros G. unfold connect. unfold_stmt. rewrite G.
  destruct w as [h i c se g u]; simpl.
  destruct i as [[] | ei]; simpl;
    [| destruct (instanceof_WalletError ei); split; reflexivity].
  destruct c as [[] | ec]; simpl;
    [| destruct (instanceof_WalletError ec); split; reflexivity].
  destruct (Js.truthy se); simpl; [| split; reflexivity].
  destruct g as [a | eg]; simpl; [| split; reflexivity].
  destruct u as [[] | eu]; split; reflexivity.
Qed.

(** X9: a handshake failure does not block a retry.  After a [connect]
    rejected at [initClient] or at the handshake, the next [connect] passes
    the guard and starts over with a new SDK instance, which replaces the
    one left by the failed call. *)
Theorem connect_retry_after_handshake_failure
    (w w' : ConnectWorld) (s : Adapter) (e : Thrown) :
  connected s || connecting s = false ->
  on_initClient w = Rejects e \/
  (on_initClient w = Resolves tt /\ on_connect w = Rejects e) ->
  connected (after (connect w) s) || connecting (after (connect w) s)
    = false /\
  hd_error (sdk_calls (trace_of (connect w') (after (connect w) s))) =
    Some (NewWcSdk (new_WcSdk w')) /\
  _sdk (after (connect w') (after (connect w) s)) = Some (new_WcSdk w').
Proof.
  intros G H.
  assert (C : connected s = false)
    by (destruct (connected s); [discriminate | reflexivity]).
  assert (S' : after (connect w) s =
               with_connecting false (with_sdk (Some (new_WcSdk w)) s)).
  { unfold connect. unfold_stmt. rewrite G.
    destruct H as [I | [I Hc]]; rewrite I; simpl; [| rewrite Hc; simpl];
      destruct (instanceof_WalletError e); reflexivity. }
  assert (G' : connected (after (connect w) s)
               || connecting (after (connect w) s) = false).
  { rewrite S'. unfold connected, connecting in *. simpl. now rewrite C. }
  split; [exact G' |].
  destruct (connect_starts_with_new_sdk w' (after (connect w) s) G') as [K1 K2].
  split; [exact K2 | exact K1].
Qed.

Lemma connect_retry_after_handshake_failure_witness :
  _sdk (after (connect world_paired) after_failed_connect) =
    Some sample_sdk /\
  hd_error (sdk_calls (trace_of (connect world_paired) after_failed_connect))
    = Some (NewWcSdk sample_sdk).
Proof.
  destruct (connect_retry_after_handshake_failure world_init_fails
              world_paired fresh relay_unreachable
              eq_refl (or_introl eq_refl))
    as (_ & H1 & H2).
  split; [exact H2 | exact H1].
Defined.

(** ** Sequences of calls *)

Lemma connect_frame (w : ConnectWorld) (s : Adapter) :
  _options (after (connect w) s) = _options s /\
  _logger (after (connect w) s) = _logger s /\
  _relayServer (after (connect w) s) = _relayServer s /\
  _connecting (after (connect w) s) = false.
Proof.
  unfold connect. unfold_stmt.
  destruct w as [h i c se g u]; simpl.
  destruct (connected s || connecting s); [repeat split |].
  destruct i as [[] | ei]; simpl;
    [| destruct (instanceof_WalletError ei); repeat split].
  destruct c as [[] | ec]; simpl;
    [| destruct (instanceof_WalletError ec); repeat split].
  destruct (Js.truthy se); simpl; [| repeat split].
  destruct g as [a | eg]; simpl; [| repeat split].
  destruct u as [[] | eu]; repeat split.
Qed.

Lemma step_frame (op : Op) (s : Adapter) :
  _connecting s = false ->
  _options (step op s) = _options s /\
  _logger (step op s) = _logger s /\
  _relayServer (step op s) = _relayServer s /\
  _connecting (step op s) = false.
Proof.
  intros H. destruct op; simpl.
  - apply connect_frame.
  - destruct (disconnect_clears_together s on_disconnect) as [-> | ->];
      repeat split; exact H.
  - rewrite onDeleted_keeps_state. repeat split; exact H.
  - rewrite (proj1 (invocations_keep_state s)). repeat split; exact H.
  - rewrite (proj1 (proj2 (invocations_keep_state s))).
    repeat split; exact H.
  - rewrite (proj1 (proj2 (proj2 (invocations_keep_state s)))).
    repeat split; exact H.
  - rewrite (proj2 (proj2 (proj2 (invocations_keep_state s)))).
    repeat split; exact H.
Qed.

(** X10: after every sequence of calls on a new adapter, each run to its
    end, [connecting] is false and the options, the logger and the relay
    server are those given to the constructor. *)
Theorem run_keeps_configuration
    (config : WalletConnectWalletAdapterConfig) (ops : list Op) :
  connecting (run ops (constructor config)) = false /\
  _options (run ops (constructor config)) = options config /\
  _logger (run ops (constructor config)) = logger config /\
  _relayServer (run ops (constructor config)) = relayServer config.
Proof.
  unfold run, connecting.
  assert (I0 : _connecting (constructor config) = false /\
               _options (constructor config) = options config /\
               _logger (constructor config) = logger config /\
               _relayServer (constructor config) = relayServer config)
    by (repeat split).
  revert I0. generalize (constructor config).
  induction ops as [| op ops IH]; intros s I0; simpl.
  - exact I0.
  - apply IH.
    destruct I0 as (Hc & Ho & Hl & Hr).
    destruct (step_frame op s Hc) as (Fo & Fl & Fr & Fc).
    repeat split; congruence.
Qed.

(** X11: after every sequence of calls on a new adapter, a held address
    comes with a held SDK instance, and [connected] is true only while both
    are held. *)
Theorem run_address_held_with_sdk
    (config : WalletConnectWalletAdapterConfig) (ops : list Op) :
  (_address (run ops (constructor config)) <> None ->
   _sdk (run ops (constructor config)) <> None) /\
  (connected (run ops (constructor config)) = true ->
   _address (run ops (constructor config)) <> None /\
   _sdk (run ops (constructor config)) <> None).
Proof.
  exact (run_address_needs_sdk config ops).
Qed.

(** X12: on a new adapter, a [connect] followed by a [disconnect] whose
    teardown succeeds gives back the adapter as constructed, whatever
    happened during the [connect], also when a session-deletion event came
    in between. *)
Theorem connect_then_disconnect_restores
    (config : WalletConnectWalletAdapterConfig) (w : ConnectWorld)
    (d : Delivery) :
  run [OpConnect w; OpDisconnect (Resolves tt)] (constructor config) =
    constructor config /\
  run [OpConnect w; OpSessionDeleted d; OpDisconnect (Resolves tt)]
      (constructor config) =
    constructor config.
Proof.
  unfold run; simpl. rewrite onDeleted_keeps_state.
  unfold connect, disconnect. unfold_stmt.
  destruct w as [h i c se g u]; simpl.
  destruct i as [[] | ei]; simpl;
    [| destruct (instanceof_WalletError ei); split; reflexivity].
  destruct c as [[] | ec]; simpl;
    [| destruct (instanceof_WalletError ec); split; reflexivity].
  destruct (Js.truthy se); simpl; [| split; reflexivity].
  destruct g as [a | eg]; simpl; [| split; reflexivity].
  destruct u as [[] | eu]; split; reflexivity.
Qed.

(** ** disconnect and session deletion *)

(** X13: with an SDK instance held, a [disconnect] whose teardown succeeds
    calls [sdk.disconnect] once on that instance, clears the address and the
    instance and emits only [disconnect]; from then on the adapter is not
    connected, the four invocations reject with the not-connected error, and
    another [disconnect] reaches no SDK and again emits [disconnect]. *)
Theorem disconnect_succeeds
    (s : Adapter) (sdk : WcSdk) (d : Outcome unit)
    (request : ContractInvocation) (requests : ContractInvocationMulti)
    (o : Outcome RpcCallResult) :
  _sdk s = Some sdk ->
  let s' := with_sdk None (with_address None s) in
  async (disconnect (Resolves tt)) s =
    (Fulfilled None, s', [Sdk (SdkDisconnect sdk); Emit EvDisconnect]) /\
  connected s' = false /\
  map (fun r => fst (fst r))
      [async (invokeRead request o) s';
       async (invokeReadMulti requests o) s';
       async (invoke request o) s';
       async (invokeMulti requests o) s'] =
    repeat (Rejected (WalletNotConnectedError Js.Undefined None)) 4 /\
  async (disconnect d) s' = (Fulfilled None, s', [Emit EvDisconnect]).
Proof.
  intros H s'. subst s'.
  unfold disconnect, invokeRead, invokeReadMulti, invoke, invokeMulti.
  unfold_stmt. rewrite H. simpl. repeat split.
Qed.

Lemma disconnect_succeeds_witness :
  async (disconnect (Resolves tt)) paired =
    (Fulfilled None, fresh,
     [Sdk (SdkDisconnect sample_sdk); Emit EvDisconnect]).
Proof.
  exact (proj1 (disconnect_succeeds paired sample_sdk (Resolves tt)
                  sample_request sample_multi_request
                  (Resolves halt_response) eq_refl)).
Defined.


(** ** Invocations *)

(** X15: with an SDK instance held, an invocation whose SDK call throws [e]
    rejects with [e] itself, wrapped in nothing, after emitting exactly one
    [error] carrying [e]; it made that one SDK call and left the adapter as
    it was.  This holds for the four invocation methods. *)
Theorem invocation_failure_propagates
    (s : Adapter) (sdk : WcSdk) (e : Thrown)
    (request : ContractInvocation) (requests : ContractInvocationMulti) :
  _sdk s = Some sdk ->
  async (invokeRead request (Rejects e)) s =
    (Rejected e, s,
     [Sdk (TestInvoke sdk (single_args request)); Emit (EvError e)]) /\
  async (invokeReadMulti requests (Rejects e)) s =
    (Rejected e, s,
     [Sdk (MultiTestInvoke sdk (multi_args requests)); Emit (EvError e)]) /\
  async (invoke request (Rejects e)) s =
    (Rejected e, s,
     [Sdk (InvokeFunction sdk (single_args request)); Emit (EvError e)]) /\
  async (invokeMulti requests (Rejects e)) s =
    (Rejected e, s,
     [Sdk (MultiInvoke sdk (multi_args requests)); Emit (EvError e)]).
Proof.
  intros H.
  rewrite (invokeRead_forwarded s sdk request (Rejects e) H).
  rewrite (invokeReadMulti_forwarded s sdk requests (Rejects e) H).
  rewrite (invoke_forwarded s sdk request (Rejects e) H).
  rewrite (invokeMulti_forwarded s sdk requests (Rejects e) H).
  repeat split.
Qed.

Lemma invocation_failure_propagates_witness :
  async (invoke sample_request (Rejects relay_unreachable)) paired =
    (Rejected relay_unreachable, paired,
     [Sdk (InvokeFunction sample_sdk (single_args sample_request));
      Emit (EvError relay_unreachable)]).
Proof.
  exact (proj1 (proj2 (proj2 (invocation_failure_propagates paired sample_sdk
                                relay_unreachable sample_request
                                sample_multi_request eq_refl)))).
Defined.

(** X16: an execution that did not end in [HALT] is not a failure of the
    call.  With an SDK instance held and the SDK resolving with such a
    response, each invocation resolves with the error status, emits no
    notification and leaves the adapter as it was. *)
Theorem invocation_fault_resolves
    (s : Adapter) (sdk : WcSdk) (response : RpcCallResult)
    (request : ContractInvocation) (requests : ContractInvocationMulti) :
  _sdk s = Some sdk ->
  terminal_state response <> Js.String "HALT" ->
  let fault := StatusError (error_member response "message")
                           (error_member response "code") in
  async (invokeRead request (Resolves response)) s =
    (Fulfilled (Some fault), s,
     [Sdk (TestInvoke sdk (single_args request))]) /\
  async (invokeReadMulti requests (Resolves response)) s =
    (Fulfilled (Some fault), s,
     [Sdk (MultiTestInvoke sdk (multi_args requests))]) /\
  async (invoke request (Resolves response)) s =
    (Fulfilled (Some fault), s,
     [Sdk (InvokeFunction sdk (single_args request))]) /\
  async (invokeMulti requests (Resolves response)) s =
    (Fulfilled (Some fault), s,
     [Sdk (MultiInvoke sdk (multi_args requests))]).
Proof.
  intros H N fault. subst fault.
  assert (R : _responseToReadResult response =
              StatusError (error_member response "message")
                          (error_member response "code")).
  { unfold _responseToReadResult.
    destruct (Js.strict_eq_string (Js.get (result response) "state") "HALT")
      eqn:E.
    - apply halt_test in E. contradiction.
    - reflexivity. }
  rewrite (invokeRead_forwarded s sdk request (Resolves response) H).
  rewrite (invokeReadMulti_forwarded s sdk requests (Resolves response) H).
  rewrite (invoke_forwarded s sdk request (Resolves response) H).
  rewrite (invokeMulti_forwarded s sdk requests (Resolves response) H).
  change (_responseToWriteResult response)
    with (_responseToReadResult response).
  rewrite R. repeat split.
Qed.

Lemma invocation_fault_resolves_witness :
  async (invokeRead sample_request (Resolves fault_response)) paired =
    (Fulfilled (Some (StatusError (Js.String "m") (Js.Number 7))), paired,
     [Sdk (TestInvoke sample_sdk (single_args sample_request))]).
Proof.
  assert (N : terminal_state fault_response <> Js.String "HALT")
    by discriminate.
  exact (proj1 (invocation_fault_resolves paired sample_sdk fault_response
                  sample_request sample_multi_request eq_refl N)).
Defined.

(** X17: [invokeRead] and [invoke] pass on the first signer only.  A
    request with several signers is forwarded exactly as the request with
    its first signer alone, and a request with an empty signer list exactly
    as a request without signers, with [signer] undefined. *)
Theorem single_invocation_first_signer
    (s : Adapter) (request : ContractInvocation)
    (x : Js.Value) (l : list Js.Value) (o : Outcome RpcCallResult) :
  async (invokeRead (with_signers (Some (x :: l)) request) o) s =
    async (invokeRead (with_signers (Some [x]) request) o) s /\
  async (invoke (with_signers (Some (x :: l)) request) o) s =
    async (invoke (with_signers (Some [x]) request) o) s /\
  async (invokeRead (with_signers (Some []) request) o) s =
    async (invokeRead (with_signers None request) o) s /\
  async (invoke (with_signers (Some []) request) o) s =
    async (invoke (with_signers None request) o) s /\
  arg_signer (single_args (with_signers (Some (x :: l)) request)) = x /\
  arg_signer (single_args (with_signers (Some []) request)) = Js.Undefined.
Proof.
  repeat split.
Qed.

(** ** Result translation *)

(** X18: the translation gives the success status exactly when the [state]
    member of the payload is the string [HALT]; a payload without [state],
    or whose [state] is any other value, gives the error status.  The read
    and the write translation agree on this. *)
Theorem translation_success_iff_halt (response : RpcCallResult) :
  ((exists data, _responseToReadResult response = StatusSuccess data) <->
   terminal_state response = Js.String "HALT") /\
  ((exists data, _responseToWriteResult response = StatusSuccess data) <->
   terminal_state response = Js.String "HALT").
Proof.
  assert (R : (exists data, _responseToReadResult response = StatusSuccess data)
              <-> terminal_state response = Js.String "HALT").
  { unfold _responseToReadResult, terminal_state.
    destruct (Js.strict_eq_string (Js.get (result response) "state") "HALT")
      eqn:E.
    - split; [intros _; now apply halt_test | intros _; eauto].
    - split.
      + intros [data D]. discriminate.
      + intros H. apply halt_test in H. congruence. }
  split; exact R.
Qed.

(** X19: when the execution did not end in [HALT] and the payload has no
    error object (the member is absent, [null] or a primitive), the error
    result carries [undefined] as message and as code. *)
Theorem translation_without_error_object (response : RpcCallResult) :
  terminal_state response <> Js.String "HALT" ->
  (forall e, Js.get (result response) "error" <> Js.Object e) ->
  _responseToReadResult response = StatusError Js.Undefined Js.Undefined /\
  _responseToWriteResult response = StatusError Js.Undefined Js.Undefined.
Proof.
  intros N A.
  assert (R : _responseToReadResult response =
              StatusError Js.Undefined Js.Undefined).
  { unfold _responseToReadResult.
    destruct (Js.strict_eq_string (Js.get (result response) "state") "HALT")
      eqn:E.
    - apply halt_test in E. contradiction.
    - destruct (Js.get (result response) "error")
        as [| | b | n | t | e | f]; try reflexivity.
      exfalso. now apply (A e). }
  split; exact R.
Qed.

Lemma translation_without_error_object_witness :
  _responseToReadResult stateless_response =
    StatusError Js.Undefined Js.Undefined.
Proof.
  assert (N : terminal_state stateless_response <> Js.String "HALT")
    by discriminate.
  assert (A : forall e,
             Js.get (result stateless_response) "error" <> Js.Object e)
    by discriminate.
  exact (proj1 (translation_without_error_object stateless_response N A)).
Defined.
